(** * Gemini Historical Artifact Description: a model of [app.py]

    The development follows the layout of [app.py]:
    - [PyStr]: the Python string operations the program relies on
      ([in], [lower], [strip], [split('/')[-1]]);
    - [Config]: the module-level configuration block (catalog resolution
      and selection of [GEMINI_MODEL]);
    - [Core]: [get_gemini_analysis], run against an arbitrary stateful
      provider, with the log of the generation attempts it makes;
    - [Ui]: the control flow of [main] around the analyze button and the
      classification of the terminal error message.

    Text is modelled by [string]; a character stands for a code point
    below 256, on which [lower] and [isspace] are those of Python's [str]. *)

From Stdlib Require Import Strings.String Strings.Ascii Lists.List Bool.Bool
  Arith.PeanoNat micromega.Lia.
Import ListNotations.
Open Scope string_scope.
Open Scope list_scope.

(* ================================================================== *)
(** ** Python string operations *)

Module PyStr.

(** [sub in s] on [str]: [sub] occurs in [s] as a contiguous run. *)
Fixpoint contains (sub s : string) : bool :=
  if String.prefix sub s then true
  else match s with
       | EmptyString => false
       | String _ s' => contains sub s'
       end.

(** [c.lower()] for a code point below 256: the ASCII capitals, and the
    Latin-1 capitals U+00C0..U+00DE except the multiplication sign U+00D7. *)
Definition lower_char (c : ascii) : ascii :=
  let n := nat_of_ascii c in
  if (((65 <=? n) && (n <=? 90))
      || ((192 <=? n) && (n <=? 222) && negb (n =? 215)))%nat
  then ascii_of_nat (n + 32)
  else c.

(** [s.lower()] *)
Fixpoint lower (s : string) : string :=
  match s with
  | EmptyString => EmptyString
  | String c s' => String (lower_char c) (lower s')
  end.

(** [c.isspace()] for a code point below 256: TAB, LF, VT, FF, CR,
    FS, GS, RS, US, SPACE, NEL (U+0085) and NBSP (U+00A0). *)
Definition isspace (c : ascii) : bool :=
  let n := nat_of_ascii c in
  (((9 <=? n) && (n <=? 13)) || ((28 <=? n) && (n <=? 32))
   || (n =? 133) || (n =? 160))%nat.

(** [s.lstrip()] *)
Fixpoint lstrip (s : string) : string :=
  match s with
  | EmptyString => EmptyString
  | String c s' => if isspace c then lstrip s' else s
  end.

(** [s.rstrip()] *)
Fixpoint rstrip (s : string) : string :=
  match s with
  | EmptyString => EmptyString
  | String c s' =>
      match rstrip s' with
      | EmptyString => if isspace c then EmptyString else String c EmptyString
      | r => String c r
      end
  end.

(** [s.strip()] *)
Definition strip (s : string) : string := rstrip (lstrip s).

(** Truth value of a [str]: non-empty. *)
Definition truthy (s : string) : bool :=
  match s with
  | EmptyString => false
  | String _ _ => true
  end.

(** Every character of [s] is whitespace (vacuously so for the empty string). *)
Fixpoint all_space (s : string) : bool :=
  match s with
  | EmptyString => true
  | String c s' => isspace c && all_space s'
  end.

(** [s.split(sep)] for a one-character separator: [cur] holds the
    characters of the field being read, in reverse. *)
Fixpoint split_go (sep : ascii) (s : string) (cur : string) : list string :=
  match s with
  | EmptyString => [cur]
  | String c s' =>
      if Ascii.eqb c sep then cur :: split_go sep s' EmptyString
      else split_go sep s' (cur ++ String c EmptyString)
  end.

Definition split (sep : ascii) (s : string) : list string :=
  split_go sep s EmptyString.

(** [s.split(sep)[-1]]; the list returned by [split] is never empty. *)
Definition split_last (sep : ascii) (s : string) : string :=
  List.last (split sep s) EmptyString.

(** [x in l] for a list of strings. *)
Definition mem (x : string) (l : list string) : bool :=
  existsb (String.eqb x) l.

End PyStr.

(* ================================================================== *)
(** ** CONFIGURATION: catalog resolution and model selection *)

Module Config.
Import PyStr.

(** What the program reads of a model descriptor yielded by
    [genai.list_models()]: its [name], and the attribute
    [supported_generation_methods] when the object has one. *)
Record Model : Type := mkModel {
  name : string;
  supported_generation_methods : option (list string)
}.

(** One run of the listing query, as the [for] loop sees it: the descriptors
    yielded, and then either the end of the iteration ([None]) or an
    exception, kept by its message. *)
Record Listing : Type := mkListing {
  yielded : list Model;
  raised : option string
}.

Definition FALLBACK_MODELS : list string :=
  ["gemini-2.5-flash"; "gemini-2.0-flash"; "gemini-2.5-pro"].

Definition DEFAULT_MODEL : string := "gemini-2.5-flash".

(** The body of the [for model in genai.list_models()] loop, threading
    the list being appended to. *)
Fixpoint collect (models : list Model) (AVAILABLE_MODELS : list string)
  : list string :=
  match models with
  | [] => AVAILABLE_MODELS
  | model :: rest =>
      let model_name := split_last "/" (name model) in
      match supported_generation_methods model with
      | Some methods =>
          if mem "generateContent" methods
          then collect rest (AVAILABLE_MODELS ++ [model_name])
          else collect rest AVAILABLE_MODELS
      | None => collect rest AVAILABLE_MODELS
      end
  end.

(** The two nested tests of the loop body, as one predicate. *)
Definition supports_generate_content (model : Model) : bool :=
  match supported_generation_methods model with
  | Some methods => mem "generateContent" methods
  | None => false
  end.

(** The [try]/[except] block: an exception raised at any point of the
    iteration replaces whatever was collected by the fallback list. *)
Definition resolve_models (q : Listing) : list string :=
  let AVAILABLE_MODELS := collect (yielded q) [] in
  match raised q with
  | Some _ => FALLBACK_MODELS
  | None => AVAILABLE_MODELS
  end.

(** The [if]/[elif] chain that sets [GEMINI_MODEL]. *)
Definition select_model (AVAILABLE_MODELS : list string) : string :=
  if mem "gemini-2.5-flash" AVAILABLE_MODELS then "gemini-2.5-flash"
  else if mem "gemini-2.0-flash" AVAILABLE_MODELS then "gemini-2.0-flash"
  else if mem "gemini-2.5-pro" AVAILABLE_MODELS then "gemini-2.5-pro"
  else match AVAILABLE_MODELS with
       | first :: _ => first
       | [] => "gemini-2.5-flash"
       end.

(** Truth value of [os.getenv("GOOGLE_API_KEY")]: [None] and the empty
    string are both false. *)
Definition key_set (GOOGLE_API_KEY : option string) : bool :=
  match GOOGLE_API_KEY with
  | Some k => truthy k
  | None => false
  end.

(** The module-level globals once the configuration block has run. *)
Record Globals : Type := mkGlobals {
  GOOGLE_API_KEY : option string;
  AVAILABLE_MODELS : list string;
  GEMINI_MODEL : string
}.

(** The configuration block. The listing query is only made when the key
    is set. *)
Definition configure (key : option string) (q : Listing) : Globals :=
  if key_set key then
    let available := resolve_models q in
    mkGlobals key available (select_model available)
  else
    mkGlobals key [] "gemini-2.5-flash".

End Config.

(* ================================================================== *)
(** ** PROMPTS and CORE FUNCTION *)

Module Core.
Import PyStr.

Definition nl : string := String (ascii_of_nat 10) EmptyString.

Definition ARTIFACT_ANALYSIS_PROMPT : string := "
You are an expert archaeologist and historian specializing in artifact analysis.

Analyze the provided image of a historical artifact and generate a comprehensive professional report.

Please include:
1. **Artifact Type & Classification** - What category does this artifact belong to?
2. **Estimated Period/Era** - When was this likely created? (with confidence level)
3. **Materials & Composition** - What materials are visible and their significance?
4. **Dimensions & Scale** - Approximate size and proportions
5. **Craftsmanship & Technique** - How was this made? What skills were required?
6. **Condition Assessment** - Current state of preservation, visible wear, damage
7. **Cultural & Historical Significance** - Why is this important?
8. **Possible Origin & Geographic Location** - Where might this have come from?
9. **Similar Artifacts** - Known comparative examples
10. **Recommendations for Further Study** - What tests or analysis would help?

Format in clear, structured markdown. Add brief disclaimers about visual-only analysis limitations.
".

(** One element of the [content] list handed to [generate_content]. *)
Inductive Part (Image : Type) : Type :=
| TextPart (s : string)
| ImagePart (i : Image).
Arguments TextPart {Image} s.
Arguments ImagePart {Image} i.

(** Outcome of the body of the [try]: [response.text], or the exception
    caught by [except Exception], kept by its [str]. *)
Inductive Attempt : Type :=
| Generated (text : string)
| Failed (error : string).

(** Outcome of a call of [get_gemini_analysis]. *)
Inductive Result : Type :=
| Return (text : string)
| Raise (message : string).

(** How the [for] loop ends: by the [return] inside it, or by running
    out of models with [last_error] as it then stands. *)
Inductive LoopEnd : Type :=
| Returned (text : string)
| Exhausted (last_error : option string).

(** [str(last_error)]; [last_error] starts as [None]. *)
Definition str_error (last_error : option string) : string :=
  match last_error with
  | Some e => e
  | None => "None"
  end.

(** The payload built inside the loop. *)
Definition build_content {Image : Type} (user_notes : string)
    (pil_image : Image) : list (Part Image) :=
  let content := [TextPart ARTIFACT_ANALYSIS_PROMPT] in
  let content :=
    if truthy (strip user_notes)
    then content ++ [TextPart (nl ++ "Additional Context from User: "
                                  ++ user_notes ++ nl)]
    else content in
  content ++ [ImagePart pil_image].

Definition models_to_try (AVAILABLE_MODELS : list string) : list string :=
  match AVAILABLE_MODELS with
  | [] => ["gemini-2.5-flash"; "gemini-2.0-flash"; "gemini-2.5-pro"]
  | _ :: _ => AVAILABLE_MODELS
  end.

Section Invoker.
(** The provider: [World] is its state (quota, network, ...), and
    [generate model_name content w] is one pass through the body of
    the [try]: [GenerativeModel(model_name).generate_content(content).text]. *)
Context {World Image : Type}.
Variable generate : string -> list (Part Image) -> World -> Attempt * World.

(** An entry of the log: the model attempted and what came of it. *)
Definition Entry : Type := (string * Attempt)%type.

(** The [for model_name in models_to_try] loop, with the log of the
    attempts made so far. *)
Fixpoint try_models (user_notes : string) (pil_image : Image)
    (models : list string) (last_error : option string)
    (w : World) (log : list Entry) : LoopEnd * World * list Entry :=
  match models with
  | [] => (Exhausted last_error, w, log)
  | model_name :: rest =>
      let content := build_content user_notes pil_image in
      match generate model_name content w with
      | (Generated text, w') =>
          (Returned text, w', log ++ [(model_name, Generated text)])
      | (Failed e, w') =>
          try_models user_notes pil_image rest (Some e) w'
                     (log ++ [(model_name, Failed e)])
      end
  end.

Definition get_gemini_analysis (AVAILABLE_MODELS : list string)
    (user_notes : string) (pil_image : Image) (w : World)
  : Result * World * list Entry :=
  match try_models user_notes pil_image (models_to_try AVAILABLE_MODELS)
                   None w [] with
  | (Returned text, w', log) => (Return text, w', log)
  | (Exhausted last_error, w', log) =>
      let error_msg := ("Failed to analyze: " ++ str_error last_error)%string in
      (Raise error_msg, w', log)
  end.

(** The errors of the attempts on [models], run in order from [w], when
    every one of them fails; [None] as soon as one succeeds. *)
Fixpoint failures (user_notes : string) (pil_image : Image)
    (models : list string) (w : World) : option (list string * World) :=
  match models with
  | [] => Some ([], w)
  | model_name :: rest =>
      match generate model_name (build_content user_notes pil_image) w with
      | (Generated _, _) => None
      | (Failed e, w') =>
          match failures user_notes pil_image rest w' with
          | Some (es, w'') => Some (e :: es, w'')
          | None => None
          end
      end
  end.

End Invoker.

(** The models of a log, in the order attempted. *)
Definition attempted (log : list (string * Attempt)) : list string :=
  map fst log.

(** The log of a run in which [models] fail one after the other with
    [errors]. *)
Definition failed_entries (models : list string) (errors : list string)
  : list (string * Attempt) :=
  combine models (map Failed errors).

End Core.

(* ================================================================== *)
(** ** STREAMLIT UI: the control flow of [main] *)

Module Ui.
Import PyStr Config Core.

(** The four canned troubleshooting texts of the [except] branch. *)
Inductive Troubleshooting : Type :=
| NoCompatibleModels
| AuthenticationError
| RateLimitExceeded
| GenericFallback.

(** The [if]/[elif] chain over [error_msg = error_str.lower()]. *)
Definition classify (error_str : string) : Troubleshooting :=
  let error_msg := lower error_str in
  if contains "not found" error_msg || contains "not supported" error_msg
  then NoCompatibleModels
  else if contains "401" error_msg || contains "permission" error_msg
          || contains "unauthorized" error_msg || contains "invalid" error_msg
  then AuthenticationError
  else if contains "rate limit" error_msg
  then RateLimitExceeded
  else GenericFallback.

(** What [main] puts on the page, in order. Static page furniture (style
    sheet, header, the About box, the usage guide) is left out; the long
    canned texts are named by their branch; [listed] is one line of a model
    list, and [report] the expander holding the result and its download
    button. *)
Inductive Widget : Type :=
| success (body : string)
| error (body : string)
| warning (body : string)
| info (body : string)
| markdown (body : string)
| listed (model_name : string)
| button (label : string) (disabled : bool)
| image_preview
| report (text : string)
| troubleshooting (branch : Troubleshooting) (error_str : string).

(** The sidebar block. *)
Definition sidebar (g : Globals) : list Widget :=
  if key_set (GOOGLE_API_KEY g) then
    [success "API Key Configured";
     markdown ("**Selected Model:** `" ++ GEMINI_MODEL g ++ "`")]
    ++ match AVAILABLE_MODELS g with
       | _ :: _ => map listed (AVAILABLE_MODELS g)
       | [] => [warning " Could not detect available models"]
       end
  else
    [error "API Key Missing - Please add GOOGLE_API_KEY to .env"].

(** [disabled=uploaded_file is None or not GOOGLE_API_KEY] *)
Definition analyze_disabled {File : Type} (g : Globals)
    (uploaded_file : option File) : bool :=
  match uploaded_file with
  | None => true
  | Some _ => negb (key_set (GOOGLE_API_KEY g))
  end.

(** The models shown under the no-compatible-models text. *)
Definition model_report (g : Globals) : list Widget :=
  match AVAILABLE_MODELS g with
  | _ :: _ => map (fun m => info (" " ++ m)) (AVAILABLE_MODELS g)
  | [] => [warning "Could not detect any compatible models with your API key"]
  end.

(** The [except Exception as e] block of the results section. *)
Definition on_failure (g : Globals) (error_str : string) : list Widget :=
  [error (" Analysis failed: " ++ error_str);
   markdown "#### Troubleshooting:"]
  ++ match classify error_str with
     | NoCompatibleModels =>
         troubleshooting NoCompatibleModels error_str :: model_report g
     | branch => [troubleshooting branch error_str]
     end.

(** One run of [main]: the page, whether [get_gemini_analysis] was called,
    the provider's state afterwards and the attempts made on it. *)
Record Run (World : Type) : Type := mkRun {
  page : list Widget;
  invoked : bool;
  world : World;
  attempts : list (string * Attempt)
}.
Arguments mkRun {World} page invoked world attempts.
Arguments page {World} r.
Arguments invoked {World} r.
Arguments world {World} r.
Arguments attempts {World} r.

Section Main.
Context {World Image File : Type}.
(** [Image.open(uploaded_file).convert("RGB")], or the exception raised. *)
Variable decode : File -> Image + string.
Variable generate : string -> list (Part Image) -> World -> Attempt * World.

(** The preview panel: the widgets shown and the value of [pil_image]. *)
Definition preview (uploaded_file : option File)
  : list Widget * option Image :=
  match uploaded_file with
  | Some f =>
      match decode f with
      | inl pil_image => ([image_preview], Some pil_image)
      | inr e => ([error (" Could not load image: " ++ e)], None)
      end
  | None => ([info " Upload an artifact image to get started"], None)
  end.

(** The results section. [analyze_button] is the value returned by
    [st.button]. *)
Definition results (g : Globals) (user_notes : option string)
    (pil_image : option Image) (analyze_button : bool) (w : World)
  : Run World :=
  if analyze_button then
    match pil_image with
    | None => mkRun [error " Please upload a valid image."] false w []
    | Some img =>
        if negb (key_set (GOOGLE_API_KEY g)) then
          mkRun [error " GOOGLE_API_KEY not configured. Add it to your .env file."]
                false w []
        else
          let notes := match user_notes with
                       | Some s => if truthy s then s else ""
                       | None => ""
                       end in
          match get_gemini_analysis generate (AVAILABLE_MODELS g) notes img w with
          | (Return result, w', log) =>
              mkRun [success " Analysis Complete!"; report result] true w' log
          | (Raise error_str, w', log) =>
              mkRun (on_failure g error_str) true w' log
          end
    end
  else mkRun [] false w [].

Definition main (g : Globals) (uploaded_file : option File)
    (user_notes : option string) (analyze_button : bool) (w : World)
  : Run World :=
  let side := sidebar g in
  let btn := button " Analyze Artifact" (analyze_disabled g uploaded_file) in
  let '(shown, pil_image) := preview uploaded_file in
  let r := results g user_notes pil_image analyze_button w in
  mkRun (side ++ [btn] ++ shown ++ page r) (invoked r) (world r) (attempts r).

End Main.

End Ui.

(* ================================================================== *)
(** ** Test providers

    Three stand-ins for the remote provider, whose state counts the calls
    received; the payload is an image-free one ([Image := unit]). *)

Module Scenario.
Import Core.

(** Every model answers, naming itself. *)
Definition healthy (model_name : string) (content : list (Part unit))
    (calls : nat) : Attempt * nat :=
  (Generated ("report by " ++ model_name), S calls).

(** Only [gemini-2.0-flash] answers; the others are unknown to the key. *)
Definition only_2_0_flash (model_name : string) (content : list (Part unit))
    (calls : nat) : Attempt * nat :=
  if String.eqb model_name "gemini-2.0-flash"
  then (Generated "## Report", S calls)
  else (Failed ("404 models/" ++ model_name ++ " is not found"), S calls).

(** Every model refuses the key, with an error naming the model. *)
Definition refusing (model_name : string) (content : list (Part unit))
    (calls : nat) : Attempt * nat :=
  (Failed ("401 unauthorized for " ++ model_name), S calls).

(** No upload can be decoded. *)
Definition undecodable (f : unit) : unit + string := inr "cannot identify image file".

(** Every upload decodes. *)
Definition decodable (f : unit) : unit + string := inl tt.

(** A listing that goes through and offers an embedding model only. *)
Definition embedding_only : Config.Listing :=
  Config.mkListing
    [Config.mkModel "models/text-embedding-004" (Some ["embedContent"])]
    None.

(** A listing that breaks off after its first model. *)
Definition interrupted : Config.Listing :=
  Config.mkListing
    [Config.mkModel "models/gemini-2.5-pro" (Some ["generateContent"])]
    (Some "503 service unavailable").

(** A listing that goes through, the pro model ahead of the flash one. *)
Definition pro_listed_first : Config.Listing :=
  Config.mkListing
    [Config.mkModel "models/gemini-2.5-pro"
       (Some ["generateContent"; "countTokens"]);
     Config.mkModel "models/text-embedding-004" (Some ["embedContent"]);
     Config.mkModel "models/gemini-2.5-flash"
       (Some ["generateContent"; "countTokens"])]
    None.

End Scenario.

(* ================================================================== *)
(** * Properties *)

(** ** Facts about the string operations *)

Module PyStrFacts.
Import PyStr.

Lemma append_empty_r (s : string) : (s ++ "")%string = s.
Proof.
  induction s as [|c s IH]; simpl; [reflexivity | now rewrite IH].
Qed.

Lemma append_assoc (a b c : string) :
  ((a ++ b) ++ c)%string = (a ++ (b ++ c))%string.
Proof.
  induction a as [|x a IH]; simpl; [reflexivity | now rewrite IH].
Qed.

(** [String.prefix] decides "is an initial segment of". *)
Lemma prefix_iff (p s : string) :
  String.prefix p s = true <-> exists r, s = (p ++ r)%string.
Proof.
  revert s; induction p as [|a p IH]; intros s.
  - destruct s; simpl; split; eauto.
  - destruct s as [|b s]; simpl.
    + split; [discriminate | intros [r Hr]; discriminate].
    + destruct (ascii_dec a b) as [->|Hab].
      * split.
        -- intros H. apply IH in H. destruct H as [r ->]. now exists r.
        -- intros [r Hr]. apply IH. exists r. congruence.
      * split; [discriminate | intros [r Hr]; congruence].
Qed.

Lemma contains_eq (sub s : string) :
  contains sub s =
  if String.prefix sub s then true
  else match s with
       | EmptyString => false
       | String _ s' => contains sub s'
       end.
Proof. destruct s; reflexivity. Qed.

(** [contains] decides "occurs as a contiguous run". *)
Lemma contains_iff (sub s : string) :
  contains sub s = true <-> exists a b, s = (a ++ sub ++ b)%string.
Proof.
  induction s as [|c s IH]; rewrite contains_eq.
  - destruct (String.prefix sub "") eqn:Hp.
    + apply prefix_iff in Hp. destruct Hp as [r Hr].
      split; [intros _; exists "", r; exact Hr | reflexivity].
    + split; [discriminate|]. intros (a & b & Hab).
      destruct a; [|discriminate]. simpl in Hab.
      assert (String.prefix sub "" = true) by (apply prefix_iff; eauto).
      congruence.
  - destruct (String.prefix sub (String c s)) eqn:Hp.
    + apply prefix_iff in Hp. destruct Hp as [r Hr].
      split; [intros _; exists "", r; exact Hr | reflexivity].
    + rewrite IH. split.
      * intros (a & b & ->). exists (String c a), b. reflexivity.
      * intros (a & b & Hab). destruct a as [|x a]; simpl in Hab.
        -- assert (String.prefix sub (String c s) = true)
             by (apply prefix_iff; eauto).
           congruence.
        -- injection Hab as _ ->. eauto.
Qed.

Lemma contains_append (a sub b : string) :
  contains sub (a ++ sub ++ b) = true.
Proof. apply contains_iff. eauto. Qed.

Lemma lower_append (a b : string) :
  lower (a ++ b) = (lower a ++ lower b)%string.
Proof.
  induction a as [|c a IH]; simpl; [reflexivity | now rewrite IH].
Qed.

(** A run of [s] is, lowered, a run of [lower s]. *)
Lemma contains_lower (sub s : string) :
  contains sub s = true -> contains (lower sub) (lower s) = true.
Proof.
  rewrite !contains_iff. intros (a & b & ->).
  exists (lower a), (lower b). now rewrite !lower_append.
Qed.

Lemma lstrip_all_space (s : string) :
  all_space s = true -> lstrip s = "".
Proof.
  induction s as [|c s IH]; simpl; [reflexivity|].
  destruct (isspace c); simpl; [exact IH | discriminate].
Qed.

Lemma lstrip_head (s : string) :
  all_space s = false ->
  exists c r, lstrip s = String c r /\ isspace c = false.
Proof.
  induction s as [|c s IH]; simpl; [discriminate|].
  destruct (isspace c) eqn:Hc; simpl; [exact IH | eauto].
Qed.

Lemma rstrip_head (c : ascii) (r : string) :
  isspace c = false -> truthy (rstrip (String c r)) = true.
Proof.
  intros Hc. simpl. destruct (rstrip r); [rewrite Hc|]; reflexivity.
Qed.

(** The test [if user_notes.strip()] fails exactly on the notes made of
    whitespace only. *)
Lemma truthy_strip (s : string) :
  truthy (strip s) = negb (all_space s).
Proof.
  unfold strip. destruct (all_space s) eqn:Hs.
  - now rewrite lstrip_all_space.
  - destruct (lstrip_head s Hs) as (c & r & -> & Hc).
    now rewrite rstrip_head.
Qed.

End PyStrFacts.

(** ** Catalog resolution and model selection *)

Module ConfigFacts.
Import PyStr Config.

Lemma mem_In (x : string) (l : list string) : mem x l = true <-> In x l.
Proof.
  unfold mem. rewrite existsb_exists. split.
  - intros (y & Hy & Heq). apply String.eqb_eq in Heq. now subst.
  - intros H. exists x. split; [exact H | apply String.eqb_refl].
Qed.

Lemma mem_not_In (x : string) (l : list string) : mem x l = false <-> ~ In x l.
Proof.
  rewrite <- mem_In. destruct (mem x l); split; congruence.
Qed.

Example split_last_qualified :
  split_last "/" "models/gemini-2.5-flash" = "gemini-2.5-flash".
Proof. reflexivity. Qed.

Example split_last_bare : split_last "/" "gemini-2.0-flash" = "gemini-2.0-flash".
Proof. reflexivity. Qed.

(** The loop appends, in listing order, the short names of the models that
    pass both tests. *)
Lemma collect_filter (models : list Model) (acc : list string) :
  collect models acc =
  acc ++ map (fun m => split_last "/" (name m))
             (filter supports_generate_content models).
Proof.
  revert acc. induction models as [|m models IH]; intros acc; simpl.
  - now rewrite app_nil_r.
  - unfold supports_generate_content.
    destruct (supported_generation_methods m) as [methods|]; [|apply IH].
    destruct (mem "generateContent" methods); [|apply IH].
    rewrite IH. simpl. now rewrite <- app_assoc.
Qed.

(** C5: [GEMINI_MODEL] is chosen by a fixed order of preference:
    [gemini-2.5-flash] when the catalog has it; otherwise
    [gemini-2.0-flash]; otherwise [gemini-2.5-pro]; otherwise the first
    entry of the catalog; and [gemini-2.5-flash] for an empty catalog.
    So a catalog holding the pro identifier and one of the two flash
    identifiers yields a flash identifier. *)
Theorem select_model_preference (catalog : list string) :
  (In "gemini-2.5-flash" catalog ->
   select_model catalog = "gemini-2.5-flash") /\
  (~ In "gemini-2.5-flash" catalog -> In "gemini-2.0-flash" catalog ->
   select_model catalog = "gemini-2.0-flash") /\
  (~ In "gemini-2.5-flash" catalog -> ~ In "gemini-2.0-flash" catalog ->
   In "gemini-2.5-pro" catalog ->
   select_model catalog = "gemini-2.5-pro") /\
  (~ In "gemini-2.5-flash" catalog -> ~ In "gemini-2.0-flash" catalog ->
   ~ In "gemini-2.5-pro" catalog ->
   forall first rest, catalog = first :: rest ->
   select_model catalog = first) /\
  (catalog = [] -> select_model catalog = "gemini-2.5-flash") /\
  (In "gemini-2.5-pro" catalog ->
   In "gemini-2.5-flash" catalog \/ In "gemini-2.0-flash" catalog ->
   (select_model catalog = "gemini-2.5-flash"
    \/ select_model catalog = "gemini-2.0-flash")
   /\ select_model catalog <> "gemini-2.5-pro").
Proof.
  unfold select_model.
  destruct (mem "gemini-2.5-flash" catalog) eqn:H25;
    [apply mem_In in H25 | apply mem_not_In in H25];
  [| destruct (mem "gemini-2.0-flash" catalog) eqn:H20;
     [apply mem_In in H20 | apply mem_not_In in H20];
     [| destruct (mem "gemini-2.5-pro" catalog) eqn:Hpro;
        [apply mem_In in Hpro | apply mem_not_In in Hpro]]];
  repeat split; intros; subst; simpl in *;
    try tauto; try discriminate; try reflexivity.
Qed.

Lemma select_model_preference_witness :
  select_model ["gemini-1.5-pro"; "gemini-2.5-pro"; "gemini-2.0-flash"]
  = "gemini-2.0-flash".
Proof.
  apply (proj1 (proj2 (select_model_preference
           ["gemini-1.5-pro"; "gemini-2.5-pro"; "gemini-2.0-flash"]))).
  - simpl. intros [H|[H|[H|[]]]]; discriminate H.
  - simpl. right. right. left. reflexivity.
Defined.

(** C7, as the code has it: resolution always yields a list and never an
    error. When the listing query raises, at whatever point, the result is
    the static fallback list, which is non-empty and holds the default
    identifier [gemini-2.5-flash]. When the query goes through, the result
    is the short names of the listed models that support [generateContent],
    in listing order, and it is empty exactly when there is no such model. *)
Theorem resolve_models_outcomes (q : Listing) :
  (forall e, raised q = Some e ->
     resolve_models q = FALLBACK_MODELS
     /\ FALLBACK_MODELS <> []
     /\ In DEFAULT_MODEL FALLBACK_MODELS) /\
  (raised q = None ->
     resolve_models q =
       map (fun m => split_last "/" (name m))
           (filter supports_generate_content (yielded q))
     /\ (resolve_models q = [] <->
         forall m, In m (yielded q) -> supports_generate_content m = false)).
Proof.
  unfold resolve_models. split.
  - intros e ->. repeat split.
    + discriminate.
    + simpl. left. reflexivity.
  - intros ->. rewrite collect_filter. simpl. split; [reflexivity|].
    induction (yielded q) as [|m ms IH]; simpl.
    + split; [intros _ m [] | reflexivity].
    + destruct (supports_generate_content m) eqn:Hm; simpl.
      * split; [discriminate|]. intros H.
        specialize (H m (or_introl eq_refl)). congruence.
      * rewrite IH. split.
        -- intros H m' [<-|Hin]; [exact Hm | now apply H].
        -- intros H m' Hin. apply H. now right.
Qed.

Lemma resolve_models_outcomes_witness :
  resolve_models Scenario.interrupted
  = ["gemini-2.5-flash"; "gemini-2.0-flash"; "gemini-2.5-pro"]
  /\ resolve_models Scenario.pro_listed_first
     = ["gemini-2.5-pro"; "gemini-2.5-flash"].
Proof.
  split.
  - apply (proj1 (resolve_models_outcomes Scenario.interrupted)
             "503 service unavailable").
    reflexivity.
  - rewrite (proj1 (proj2 (resolve_models_outcomes Scenario.pro_listed_first)
                     eq_refl)).
    reflexivity.
Defined.

(** C7, as stated, fails: a listing query that goes through and offers no
    model supporting [generateContent] leaves the catalog empty. *)
Lemma resolve_models_empty_catalog :
  resolve_models Scenario.embedding_only = []
  /\ AVAILABLE_MODELS (configure (Some "key") Scenario.embedding_only) = [].
Proof. split; reflexivity. Qed.

End ConfigFacts.

(** ** The payload and the fallback chain *)

Module CoreFacts.
Import PyStr PyStrFacts Core.

Example blank_note_payload :
  build_content (" " ++ nl) tt = [TextPart ARTIFACT_ANALYSIS_PROMPT; ImagePart tt].
Proof. reflexivity. Qed.

Example padded_note_payload :
  build_content " bronze " tt =
  [TextPart ARTIFACT_ANALYSIS_PROMPT;
   TextPart (nl ++ "Additional Context from User:  bronze " ++ nl);
   ImagePart tt].
Proof. reflexivity. Qed.

(** C6: the payload opens with the instruction template and closes with
    the image. A note that is empty or made of whitespace only adds
    nothing, so the payload has two parts; any other note adds, between
    the two, one labelled segment that carries the note as typed, and the
    payload has three parts. A note is of the first kind exactly when
    [strip] leaves nothing of it. *)
Theorem build_content_parts {Image : Type} (user_notes : string)
    (pil_image : Image) :
  build_content user_notes pil_image =
    (if all_space user_notes
     then [TextPart ARTIFACT_ANALYSIS_PROMPT; ImagePart pil_image]
     else [TextPart ARTIFACT_ANALYSIS_PROMPT;
           TextPart (nl ++ "Additional Context from User: "
                        ++ user_notes ++ nl);
           ImagePart pil_image])
  /\ length (build_content user_notes pil_image) =
       (if all_space user_notes then 2 else 3)
  /\ contains user_notes
       (nl ++ "Additional Context from User: " ++ user_notes ++ nl) = true
  /\ all_space user_notes = negb (truthy (strip user_notes)).
Proof.
  unfold build_content. rewrite truthy_strip.
  destruct (all_space user_notes); simpl negb; cbv iota;
    repeat split;
    apply (contains_append (nl ++ "Additional Context from User: ")).
Qed.

Section InvokerFacts.
Context {World Image : Type}.
Variable generate : string -> list (Part Image) -> World -> Attempt * World.
Variables (user_notes : string) (pil_image : Image).


Lemma last_cons_default {A : Type} (x : A) (l : list A) (d d' : A) :
  last (x :: l) d = last (x :: l) d'.
Proof.
  revert x. induction l as [|y l IH]; intros x; [reflexivity|].
  change (last (y :: l) d = last (y :: l) d'). apply IH.
Qed.

Lemma failures_length (models : list string) :
  forall w errors w',
    failures generate user_notes pil_image models w = Some (errors, w') -> length errors = length models.
Proof.
  induction models as [|m models IH]; simpl; intros w errors w' H.
  - now inversion H.
  - destruct (generate m (build_content user_notes pil_image) w) as [[t|e] w1]; [discriminate|].
    destruct (failures generate user_notes pil_image models w1) as [[es w2]|] eqn:Hf; [|discriminate].
    inversion H; subst. simpl. f_equal. eauto.
Qed.

(** The loop only ever extends the log, by attempts on an initial
    segment of the models it was given, each taken once and in order. *)
Lemma try_models_prefix (models : list string) :
  forall last_error w log,
  exists entries rest,
    snd (try_models generate user_notes pil_image models last_error w log) = log ++ entries
    /\ models = attempted entries ++ rest
    /\ (models <> [] -> entries <> []).
Proof.
  induction models as [|m models IH]; intros last_error w log; simpl.
  - exists [], []. rewrite app_nil_r. now repeat split.
  - destruct (generate m (build_content user_notes pil_image) w) as [[t|e] w1].
    + exists [(m, Generated t)], models. simpl. repeat split. discriminate.
    + destruct (IH (Some e) w1 (log ++ [(m, Failed e)]))
        as (entries & rest & Hlog & Hmodels & _).
      exists ((m, Failed e) :: entries), rest.
      rewrite Hlog, <- app_assoc. simpl. rewrite <- Hmodels.
      repeat split. discriminate.
Qed.

(** When every model fails, the loop runs to its end; [last_error] is
    then the error of the last attempt, or its initial value when there
    was no model at all. *)
Lemma try_models_exhausted (models : list string) :
  forall last_error w log errors w',
    failures generate user_notes pil_image models w = Some (errors, w') ->
    try_models generate user_notes pil_image models last_error w log =
    (Exhausted (last (map Some errors) last_error), w',
     log ++ failed_entries models errors).
Proof.
  induction models as [|m models IH]; simpl;
    intros last_error w log errors w' H.
  - inversion H; subst. simpl. now rewrite app_nil_r.
  - destruct (generate m (build_content user_notes pil_image) w) as [[t|e] w1]; [discriminate|].
    destruct (failures generate user_notes pil_image models w1) as [[es w2]|] eqn:Hf; [|discriminate].
    inversion H; subst.
    rewrite (IH (Some e) w1 _ es w' Hf).
    unfold failed_entries. simpl. rewrite <- app_assoc. simpl.
    destruct es as [|e' es]; [reflexivity|].
    simpl map. now rewrite (last_cons_default (Some e') _ (Some e) last_error).
Qed.

(** When the models of [before] all fail and the next one answers, the
    loop returns that answer and leaves the remaining models alone. *)
Lemma try_models_returned (before : list string) :
  forall model_name after last_error w log errors w1 text w2,
    failures generate user_notes pil_image before w = Some (errors, w1) ->
    generate model_name (build_content user_notes pil_image) w1 = (Generated text, w2) ->
    try_models generate user_notes pil_image (before ++ model_name :: after) last_error w log =
    (Returned text, w2,
     log ++ failed_entries before errors ++ [(model_name, Generated text)]).
Proof.
  induction before as [|m before IH]; simpl;
    intros model_name after last_error w log errors w1 text w2 H Hgen.
  - inversion H; subst. now rewrite Hgen.
  - destruct (generate m (build_content user_notes pil_image) w) as [[t|e] w'] ; [discriminate|].
    destruct (failures generate user_notes pil_image before w') as [[es w'']|] eqn:Hf; [|discriminate].
    inversion H; subst.
    rewrite (IH model_name after (Some e) w' _ es w1 text w2 Hf Hgen).
    unfold failed_entries. simpl. now rewrite <- app_assoc.
Qed.

Lemma attempted_failed_entries (models errors : list string) :
  length errors = length models ->
  attempted (failed_entries models errors) = models.
Proof.
  unfold attempted, failed_entries.
  revert errors. induction models as [|m models IH];
    intros [|e errors] Hlen; simpl in *; try discriminate; try reflexivity.
  f_equal. apply IH. now injection Hlen.
Qed.

(** C1: the invoker returns the text of the first model of the list whose
    attempt succeeds, in the provider state that attempt leaves, having
    attempted the models before it once each and none of those after it.
    In every run the models attempted are an initial segment of the list
    iterated, so no entry of the list is attempted twice. *)
Theorem get_gemini_analysis_first_success (AVAILABLE_MODELS : list string)
    (w : World) :
  (exists rest,
     models_to_try AVAILABLE_MODELS =
     attempted (snd (get_gemini_analysis generate AVAILABLE_MODELS
                       user_notes pil_image w)) ++ rest) /\
  (forall before model_name after errors w1 text w2,
     models_to_try AVAILABLE_MODELS = before ++ model_name :: after ->
     failures generate user_notes pil_image before w = Some (errors, w1) ->
     generate model_name (build_content user_notes pil_image) w1
       = (Generated text, w2) ->
     get_gemini_analysis generate AVAILABLE_MODELS user_notes pil_image w
       = (Return text, w2,
          failed_entries before errors ++ [(model_name, Generated text)])
     /\ attempted (failed_entries before errors
                     ++ [(model_name, Generated text)])
        = before ++ [model_name]).
Proof.
  unfold get_gemini_analysis. split.
  - destruct (try_models_prefix (models_to_try AVAILABLE_MODELS) None w [])
      as (entries & rest & Hlog & Hmodels & _).
    exists rest.
    destruct (try_models generate user_notes pil_image
                (models_to_try AVAILABLE_MODELS) None w [])
      as [[[text|last_error] w'] log]; simpl in *; now subst.
  - intros before model_name after errors w1 text w2 Hsplit Hfail Hgen.
    rewrite Hsplit.
    rewrite (try_models_returned before model_name after None w []
               errors w1 text w2 Hfail Hgen).
    split; [reflexivity|].
    unfold attempted. rewrite map_app. simpl. f_equal.
    apply attempted_failed_entries. eapply failures_length; eauto.
Qed.

(** C2: when every model of the list fails, the invoker raises one error,
    whose message is [Failed to analyze: ] followed by the message of the
    last model's failure, and so contains it; the failures of the earlier
    models appear nowhere in it. *)
Theorem get_gemini_analysis_all_fail (AVAILABLE_MODELS : list string)
    (w : World) (errors : list string) (w' : World) :
  failures generate user_notes pil_image (models_to_try AVAILABLE_MODELS) w
    = Some (errors, w') ->
  exists earlier e,
    errors = earlier ++ [e]
    /\ length errors = length (models_to_try AVAILABLE_MODELS)
    /\ get_gemini_analysis generate AVAILABLE_MODELS user_notes pil_image w
       = (Raise ("Failed to analyze: " ++ e), w',
          failed_entries (models_to_try AVAILABLE_MODELS) errors)
    /\ contains e ("Failed to analyze: " ++ e) = true.
Proof.
  intros Hfail.
  pose proof (failures_length _ _ _ _ Hfail) as Hlen.
  assert (Hne : errors <> []).
  { intros ->. destruct AVAILABLE_MODELS; discriminate Hlen. }
  destruct (exists_last Hne) as (earlier & e & ->).
  exists earlier, e. repeat split; [exact Hlen | |].
  - unfold get_gemini_analysis.
    rewrite (try_models_exhausted _ None w [] _ w' Hfail).
    rewrite map_app. change (map Some [e]) with [Some e].
    rewrite last_last. reflexivity.
  - pose proof (contains_append "Failed to analyze: " e "") as H.
    now rewrite append_empty_r in H.
Qed.

(** C3: the list the invoker iterates is never empty: an empty catalog is
    replaced by the three hardcoded identifiers, and so every invocation
    attempts at least one model. *)
Theorem models_to_try_nonempty (AVAILABLE_MODELS : list string) (w : World) :
  models_to_try AVAILABLE_MODELS <> []
  /\ models_to_try [] = ["gemini-2.5-flash"; "gemini-2.0-flash"; "gemini-2.5-pro"]
  /\ snd (get_gemini_analysis generate AVAILABLE_MODELS user_notes pil_image w)
     <> [].
Proof.
  assert (Hne : models_to_try AVAILABLE_MODELS <> [])
    by (destruct AVAILABLE_MODELS; discriminate).
  repeat split; [exact Hne|].
  unfold get_gemini_analysis.
  destruct (try_models_prefix (models_to_try AVAILABLE_MODELS) None w [])
    as (entries & rest & Hlog & _ & Hentries).
  destruct (try_models generate user_notes pil_image
              (models_to_try AVAILABLE_MODELS) None w [])
    as [[[text|last_error] w1] log]; simpl in *; subst; auto.
Qed.

End InvokerFacts.

Lemma get_gemini_analysis_first_success_witness :
  get_gemini_analysis Scenario.only_2_0_flash [] " bronze " tt 0
  = (Return "## Report", 2,
     [("gemini-2.5-flash", Failed "404 models/gemini-2.5-flash is not found");
      ("gemini-2.0-flash", Generated "## Report")]).
Proof.
  apply (proj2 (get_gemini_analysis_first_success
                  Scenario.only_2_0_flash " bronze " tt [] 0)
           ["gemini-2.5-flash"] "gemini-2.0-flash" ["gemini-2.5-pro"]
           ["404 models/gemini-2.5-flash is not found"] 1 "## Report" 2).
  - reflexivity.
  - reflexivity.
  - reflexivity.
Defined.

Lemma get_gemini_analysis_all_fail_witness :
  exists earlier e,
    ["401 unauthorized for gemini-2.5-flash";
     "401 unauthorized for gemini-2.0-flash";
     "401 unauthorized for gemini-2.5-pro"] = earlier ++ [e]
    /\ 3 = length (models_to_try [])
    /\ get_gemini_analysis Scenario.refusing [] "" tt 0
       = (Raise ("Failed to analyze: " ++ e), 3,
          failed_entries (models_to_try [])
            ["401 unauthorized for gemini-2.5-flash";
             "401 unauthorized for gemini-2.0-flash";
             "401 unauthorized for gemini-2.5-pro"])
    /\ contains e ("Failed to analyze: " ++ e) = true.
Proof.
  apply (get_gemini_analysis_all_fail Scenario.refusing "" tt [] 0
           ["401 unauthorized for gemini-2.5-flash";
            "401 unauthorized for gemini-2.0-flash";
            "401 unauthorized for gemini-2.5-pro"] 3).
  reflexivity.
Defined.

(** C4, on the code: with the pro model listed ahead of the flash one,
    [GEMINI_MODEL] is the flash model, yet the invoker goes to the pro
    model first, returns its text and never tries the flash model. *)
Lemma listing_order_not_preference_order :
  let g := Config.configure (Some "key") Scenario.pro_listed_first in
  Config.AVAILABLE_MODELS g = ["gemini-2.5-pro"; "gemini-2.5-flash"]
  /\ Config.GEMINI_MODEL g = "gemini-2.5-flash"
  /\ get_gemini_analysis Scenario.healthy (Config.AVAILABLE_MODELS g) "" tt 0
     = (Return "report by gemini-2.5-pro", 1,
        [("gemini-2.5-pro", Generated "report by gemini-2.5-pro")]).
Proof. repeat split. Qed.

End CoreFacts.

(** ** The analyze gate and the troubleshooting branches *)

Module UiFacts.
Import PyStr PyStrFacts Config Core Ui.

Example classify_not_found :
  classify "Failed to analyze: 404 models/gemini-2.5-pro is NOT FOUND"
  = NoCompatibleModels.
Proof. reflexivity. Qed.

Example classify_unauthorized :
  classify "Failed to analyze: 401 Unauthorized" = AuthenticationError.
Proof. reflexivity. Qed.

Example classify_rate_limit :
  classify "Failed to analyze: 429 Rate Limit exceeded" = RateLimitExceeded.
Proof. reflexivity. Qed.

Example classify_other :
  classify "Failed to analyze: connection reset" = GenericFallback.
Proof. reflexivity. Qed.

(** The failure block always shows the text of the branch [classify] picks. *)
Lemma on_failure_shows_branch (g : Globals) (error_str : string) :
  In (troubleshooting (classify error_str) error_str) (on_failure g error_str).
Proof.
  unfold on_failure. apply in_or_app. right.
  destruct (classify error_str); simpl; auto.
Qed.

(** The failure block shows the text of no other branch. *)
Lemma on_failure_one_branch (g : Globals) (error_str : string)
    (branch : Troubleshooting) :
  In (troubleshooting branch error_str) (on_failure g error_str) ->
  branch = classify error_str.
Proof.
  unfold on_failure. intros H. apply in_app_or in H.
  destruct H as [[H|[H|[]]]|H]; try discriminate H.
  assert (Hreport : ~ In (troubleshooting branch error_str) (model_report g)).
  { unfold model_report. destruct (AVAILABLE_MODELS g) as [|m ms].
    - intros [H'|[]]; discriminate H'.
    - intros H'. apply in_map_iff in H'. destruct H' as (x & Hx & _).
      discriminate Hx. }
  destruct (classify error_str); simpl in H;
    destruct H as [H|H]; try (now inversion H); try contradiction.
Qed.

Section MainFacts.
Context {World Image File : Type}.
Variable decode : File -> Image + string.
Variable generate : string -> list (Part Image) -> World -> Attempt * World.

(** C8: without an API key the analyze button is disabled and the sidebar
    shows the configuration error; whatever the button reports, [main]
    runs to its end without calling the invoker, so nothing is sent to the
    provider and its state is untouched. *)
Theorem missing_key_blocks_analysis (g : Globals)
    (uploaded_file : option File) (user_notes : option string)
    (analyze_button : bool) (w : World) :
  key_set (GOOGLE_API_KEY g) = false ->
  let r := main decode generate g uploaded_file user_notes analyze_button w in
  analyze_disabled g uploaded_file = true
  /\ In (button " Analyze Artifact" true) (page r)
  /\ In (error "API Key Missing - Please add GOOGLE_API_KEY to .env") (page r)
  /\ invoked r = false
  /\ attempts r = []
  /\ world r = w.
Proof.
  intros Hkey r.
  assert (Hdis : analyze_disabled g uploaded_file = true).
  { unfold analyze_disabled. destruct uploaded_file; [now rewrite Hkey | reflexivity]. }
  subst r. unfold main. rewrite Hdis.
  destruct (preview decode uploaded_file) as [shown pil_image].
  assert (Hres : forall run,
            run = results generate g user_notes pil_image analyze_button w ->
            invoked run = false /\ attempts run = [] /\ world run = w).
  { intros run ->. unfold results.
    destruct analyze_button; [|now repeat split].
    destruct pil_image; [|now repeat split].
    rewrite Hkey. now repeat split. }
  destruct (Hres _ eq_refl) as (Hinv & Hatt & Hw).
  cbn [page invoked attempts world].
  repeat split; try assumption.
  - apply in_or_app. right. left. reflexivity.
  - apply in_or_app. left. unfold sidebar. rewrite Hkey. left. reflexivity.
Qed.

End MainFacts.

Lemma missing_key_blocks_analysis_witness :
  let r := main Scenario.decodable Scenario.healthy
             (configure None Scenario.pro_listed_first)
             (Some tt) (Some "bronze") true 0 in
  analyze_disabled (configure None Scenario.pro_listed_first) (Some tt) = true
  /\ In (button " Analyze Artifact" true) (page r)
  /\ In (error "API Key Missing - Please add GOOGLE_API_KEY to .env") (page r)
  /\ invoked r = false
  /\ attempts r = []
  /\ world r = 0.
Proof.
  apply (missing_key_blocks_analysis Scenario.decodable Scenario.healthy
           (configure None Scenario.pro_listed_first)
           (Some tt) (Some "bronze") true 0).
  reflexivity.
Defined.

(** C9, as the code has it: the branch is picked from the lowered message
    by a chain of tests. A message holding [401], [permission],
    [unauthorized] or [invalid] gets the authentication text provided it
    holds neither [not found] nor [not supported]; a message holding
    [rate limit] gets the rate-limit text provided it holds none of the
    six words before; a message holding none of the seven gets the generic
    text. The failure block shows the text picked and no other. *)
Theorem classify_by_precedence (g : Globals) (error_str : string) :
  let error_msg := lower error_str in
  let missing :=
    contains "not found" error_msg || contains "not supported" error_msg in
  let denied :=
    contains "401" error_msg || contains "permission" error_msg
    || contains "unauthorized" error_msg || contains "invalid" error_msg in
  (missing = false -> denied = true ->
   classify error_str = AuthenticationError) /\
  (missing = false -> denied = false ->
   contains "rate limit" error_msg = true ->
   classify error_str = RateLimitExceeded) /\
  (missing = false -> denied = false ->
   contains "rate limit" error_msg = false ->
   classify error_str = GenericFallback) /\
  (forall branch,
     In (troubleshooting branch error_str) (on_failure g error_str)
     <-> branch = classify error_str).
Proof.
  intros error_msg missing denied.
  repeat split.
  - intros Hm Hd. unfold classify. fold error_msg. fold missing.
    rewrite Hm. fold denied. now rewrite Hd.
  - intros Hm Hd Hr. unfold classify. fold error_msg. fold missing.
    rewrite Hm. fold denied. now rewrite Hd, Hr.
  - intros Hm Hd Hr. unfold classify. fold error_msg. fold missing.
    rewrite Hm. fold denied. now rewrite Hd, Hr.
  - apply on_failure_one_branch.
  - intros ->. apply on_failure_shows_branch.
Qed.

Lemma classify_by_precedence_witness :
  classify "Failed to analyze: 401 Unauthorized for gemini-2.5-pro"
  = AuthenticationError.
Proof.
  apply (proj1 (classify_by_precedence
                  (configure None Scenario.embedding_only)
                  "Failed to analyze: 401 Unauthorized for gemini-2.5-pro")).
  - reflexivity.
  - reflexivity.
Defined.

(** C9, as stated, fails: a message that holds [unauthorized] and also
    [not found] gets the no-compatible-models text, and one that holds
    [rate limit] and also [invalid] gets the authentication text. *)
Lemma unauthorized_not_always_authentication :
  (contains "unauthorized"
     (lower "Failed to analyze: model not found or caller unauthorized") = true
   /\ classify "Failed to analyze: model not found or caller unauthorized"
      <> AuthenticationError)
  /\ (contains "rate limit"
        (lower "Failed to analyze: invalid request, rate limit applies") = true
      /\ classify "Failed to analyze: invalid request, rate limit applies"
         <> RateLimitExceeded).
Proof. repeat split; discriminate. Qed.

(** C10: the test for [not found] and [not supported] comes first, so a
    message holding one of them together with [unauthorized] gets the
    no-compatible-models text and not the authentication text. *)
Theorem not_found_takes_precedence (g : Globals) (error_str : string) :
  contains "not found" (lower error_str) = true
  \/ contains "not supported" (lower error_str) = true ->
  contains "unauthorized" (lower error_str) = true ->
  classify error_str = NoCompatibleModels
  /\ In (troubleshooting NoCompatibleModels error_str) (on_failure g error_str)
  /\ ~ In (troubleshooting AuthenticationError error_str)
          (on_failure g error_str).
Proof.
  intros Hmissing _.
  assert (Hc : classify error_str = NoCompatibleModels).
  { unfold classify. destruct Hmissing as [-> | ->]; [reflexivity|].
    now rewrite orb_true_r. }
  repeat split; [exact Hc | |].
  - rewrite <- Hc. apply on_failure_shows_branch.
  - intros H. apply on_failure_one_branch in H. congruence.
Qed.

Lemma not_found_takes_precedence_witness :
  classify "Failed to analyze: 401 Unauthorized: model is not supported"
  = NoCompatibleModels.
Proof.
  apply (not_found_takes_precedence
           (configure None Scenario.embedding_only)
           "Failed to analyze: 401 Unauthorized: model is not supported").
  - right. reflexivity.
  - reflexivity.
Defined.

End UiFacts.

(* ================================================================== *)
(** * Further properties of the configuration block *)

Module CatalogFacts.
Import PyStr PyStrFacts Config ConfigFacts.

Lemma prefix_empty (s : string) : String.prefix "" s = true.
Proof. destruct s; reflexivity. Qed.

(** Looking for a single character goes through the string one
    character at a time. *)
Lemma contains_char_cons (sep c : ascii) (s : string) :
  contains (String sep "") (String c s) =
  Ascii.eqb sep c || contains (String sep "") s.
Proof.
  rewrite contains_eq. simpl String.prefix.
  destruct (ascii_dec sep c) as [->|Hne].
  - now rewrite prefix_empty, Ascii.eqb_refl.
  - apply Ascii.eqb_neq in Hne. now rewrite Hne.
Qed.

Lemma contains_char_append (sep : ascii) (a b : string) :
  contains (String sep "") (a ++ b) =
  contains (String sep "") a || contains (String sep "") b.
Proof.
  induction a as [|c a IH]; [reflexivity|].
  change (String c a ++ b)%string with (String c (a ++ b)).
  rewrite !contains_char_cons, IH. now rewrite orb_assoc.
Qed.

Lemma split_go_nonempty (sep : ascii) (s cur : string) :
  split_go sep s cur <> [].
Proof.
  revert cur. induction s as [|c s IH]; intros cur; simpl.
  - discriminate.
  - destruct (Ascii.eqb c sep); [discriminate | apply IH].
Qed.

(** Without a separator there is one field, the whole string. *)
Lemma split_go_no_sep (sep : ascii) (s : string) :
  forall cur,
    contains (String sep "") s = false ->
    split_go sep s cur = [(cur ++ s)%string].
Proof.
  induction s as [|c s IH]; intros cur H.
  - simpl. now rewrite append_empty_r.
  - rewrite contains_char_cons in H. apply orb_false_elim in H.
    destruct H as [Hc Hs]. simpl.
    rewrite Ascii.eqb_sym, Hc. rewrite (IH _ Hs).
    now rewrite append_assoc.
Qed.

(** The last field only depends on what follows a separator. *)
Lemma split_go_last_after (sep : ascii) (a b : string) :
  forall cur d,
    last (split_go sep (a ++ String sep b) cur) d =
    last (split_go sep b "") d.
Proof.
  induction a as [|c a IH]; intros cur d.
  - simpl. rewrite Ascii.eqb_refl.
    destruct (split_go sep b "") eqn:Hb; [|reflexivity].
    now apply split_go_nonempty in Hb.
  - change (String c a ++ String sep b)%string
      with (String c (a ++ String sep b)).
    simpl. destruct (Ascii.eqb c sep).
    + destruct (split_go sep (a ++ String sep b) "") as [|f fs] eqn:Hb.
      * now apply split_go_nonempty in Hb.
      * change (last (cur :: f :: fs) d) with (last (f :: fs) d).
        rewrite <- Hb. apply IH.
    + apply IH.
Qed.

(** The last field never holds the separator. *)
Lemma split_go_last_clean (sep : ascii) (s : string) :
  forall cur d,
    contains (String sep "") cur = false ->
    contains (String sep "") (last (split_go sep s cur) d) = false.
Proof.
  induction s as [|c s IH]; intros cur d Hcur; simpl.
  - exact Hcur.
  - destruct (Ascii.eqb c sep) eqn:Hc.
    + destruct (split_go sep s "") as [|f fs] eqn:Hs.
      * now apply split_go_nonempty in Hs.
      * change (last (cur :: f :: fs) d) with (last (f :: fs) d).
        rewrite <- Hs. now apply IH.
    + apply IH. rewrite contains_char_append, Hcur.
      rewrite contains_char_cons, Ascii.eqb_sym, Hc. reflexivity.
Qed.

(** X1: the short name taken from a qualified model name is the text
    after its last separator, and a name with no separator is kept whole. *)
Theorem split_last_after_separator (sep : ascii) (qualifier short : string) :
  contains (String sep "") short = false ->
  split_last sep (qualifier ++ String sep short) = short
  /\ split_last sep short = short.
Proof.
  intros Hshort. unfold split_last, split. split.
  - rewrite split_go_last_after. now rewrite (split_go_no_sep _ _ "" Hshort).
  - now rewrite (split_go_no_sep _ _ "" Hshort).
Qed.

Lemma split_last_after_separator_witness :
  split_last "/" ("tunedModels/team-a" ++ String "/" "gemini-2.5-flash")
    = "gemini-2.5-flash"
  /\ split_last "/" "gemini-2.5-flash" = "gemini-2.5-flash".
Proof.
  apply (split_last_after_separator "/" "tunedModels/team-a" "gemini-2.5-flash").
  reflexivity.
Defined.

(** X2: whatever the key and whatever the listing query does, no
    identifier of the resolved catalog holds a slash. *)
Theorem catalog_names_have_no_slash (key : option string) (q : Listing)
    (model_name : string) :
  In model_name (AVAILABLE_MODELS (configure key q)) ->
  contains "/" model_name = false.
Proof.
  unfold configure. destruct (key_set key); simpl; [|intros []].
  unfold resolve_models. destruct (raised q).
  - simpl. intros [<-|[<-|[<-|[]]]]; reflexivity.
  - rewrite collect_filter. simpl. intros H.
    apply in_map_iff in H. destruct H as (m & <- & _).
    unfold split_last, split. now apply split_go_last_clean.
Qed.

Lemma catalog_names_have_no_slash_witness :
  contains "/" "gemini-2.5-pro" = false.
Proof.
  apply (catalog_names_have_no_slash (Some "key") Scenario.pro_listed_first
           "gemini-2.5-pro").
  simpl. left. reflexivity.
Defined.

(** X3: the model chosen as [GEMINI_MODEL] is taken from the catalog
    whenever the catalog has an entry. *)
Theorem select_model_from_catalog (catalog : list string) :
  catalog <> [] -> In (select_model catalog) catalog.
Proof.
  intros Hne. unfold select_model.
  destruct (mem "gemini-2.5-flash" catalog) eqn:H25;
    [now apply mem_In in H25|].
  destruct (mem "gemini-2.0-flash" catalog) eqn:H20;
    [now apply mem_In in H20|].
  destruct (mem "gemini-2.5-pro" catalog) eqn:Hpro;
    [now apply mem_In in Hpro|].
  destruct catalog as [|first rest]; [congruence | now left].
Qed.

Lemma select_model_from_catalog_witness :
  In (select_model ["gemini-1.5-pro"; "gemini-1.5-flash"])
     ["gemini-1.5-pro"; "gemini-1.5-flash"].
Proof.
  apply (select_model_from_catalog ["gemini-1.5-pro"; "gemini-1.5-flash"]).
  discriminate.
Defined.

(** X4: after the configuration block, whatever the key and the outcome
    of the listing query, the model named as [GEMINI_MODEL] is one of the
    models the invoker will go through. *)
Theorem selected_model_is_tried (key : option string) (q : Listing) :
  In (GEMINI_MODEL (configure key q))
     (Core.models_to_try (AVAILABLE_MODELS (configure key q))).
Proof.
  unfold configure. destruct (key_set key); simpl.
  - destruct (resolve_models q) as [|first rest] eqn:Hres.
    + simpl. left. reflexivity.
    + change (Core.models_to_try (first :: rest)) with (first :: rest).
      rewrite <- Hres. apply select_model_from_catalog. congruence.
  - left. reflexivity.
Qed.

End CatalogFacts.

(* ================================================================== *)
(** * Further properties of the fallback chain *)

Module ChainFacts.
Import PyStr PyStrFacts Core CoreFacts.

Section Origin.
Context {World Image : Type}.
Variable generate : string -> list (Part Image) -> World -> Attempt * World.
Variables (user_notes : string) (pil_image : Image).

(** A list of models either fails throughout, or splits at its first
    model that answers. *)
Lemma failures_or_success (models : list string) :
  forall w,
    (exists errors w',
       failures generate user_notes pil_image models w = Some (errors, w'))
    \/ (exists before model_name after errors w1 text w2,
          models = before ++ model_name :: after
          /\ failures generate user_notes pil_image before w
             = Some (errors, w1)
          /\ generate model_name (build_content user_notes pil_image) w1
             = (Generated text, w2)).
Proof.
  induction models as [|m models IH]; intros w.
  - left. exists [], w. reflexivity.
  - destruct (generate m (build_content user_notes pil_image) w)
      as [[text|e] w1] eqn:Hgen.
    + right. exists [], m, models, [], w, text, w1. now repeat split.
    + destruct (IH w1) as [(errors & w' & Hf)
                          |(before & m' & after & errors & w2 & text & w3
                            & -> & Hf & Hgen')].
      * left. exists (e :: errors), w'. simpl. now rewrite Hgen, Hf.
      * right. exists (m :: before), m', after, (e :: errors), w2, text, w3.
        repeat split; [|exact Hgen'].
        simpl. now rewrite Hgen, Hf.
Qed.

(** X5: a text returned by the invoker is always the answer of a model
    of the list iterated, given after every model before it had failed,
    and the provider is left in the state that answer left it in; the log
    holds those failures and that answer, and nothing else. *)
Theorem returned_text_origin (AVAILABLE_MODELS : list string) (w : World)
    (text : string) (w' : World) (log : list (string * Attempt)) :
  get_gemini_analysis generate AVAILABLE_MODELS user_notes pil_image w
    = (Return text, w', log) ->
  exists before model_name after errors w1,
    models_to_try AVAILABLE_MODELS = before ++ model_name :: after
    /\ failures generate user_notes pil_image before w = Some (errors, w1)
    /\ generate model_name (build_content user_notes pil_image) w1
       = (Generated text, w')
    /\ log = failed_entries before errors ++ [(model_name, Generated text)].
Proof.
  intros Hrun. unfold get_gemini_analysis in Hrun.
  destruct (failures_or_success (models_to_try AVAILABLE_MODELS) w)
    as [(errors & w1 & Hf)
       |(before & m & after & errors & w1 & t & w2 & Hsplit & Hf & Hgen)].
  - rewrite (try_models_exhausted generate user_notes pil_image
               _ None w [] _ _ Hf) in Hrun.
    discriminate Hrun.
  - rewrite Hsplit in Hrun.
    rewrite (try_models_returned generate user_notes pil_image
               before m after None w [] errors w1 t w2 Hf Hgen) in Hrun.
    inversion Hrun; subst.
    exists before, m, after, errors, w1. now repeat split.
Qed.

(** X6: the invoker raises only when every model of the list iterated
    has failed, and the message is then [Failed to analyze: ] followed by
    the error of the last model: the text [None], with which [last_error]
    starts, is never what is reported. *)
Theorem raised_error_origin (AVAILABLE_MODELS : list string) (w : World)
    (message : string) (w' : World) (log : list (string * Attempt)) :
  get_gemini_analysis generate AVAILABLE_MODELS user_notes pil_image w
    = (Raise message, w', log) ->
  exists earlier e,
    failures generate user_notes pil_image (models_to_try AVAILABLE_MODELS) w
      = Some (earlier ++ [e], w')
    /\ message = ("Failed to analyze: " ++ e)%string
    /\ log = failed_entries (models_to_try AVAILABLE_MODELS) (earlier ++ [e])
    /\ attempted log = models_to_try AVAILABLE_MODELS.
Proof.
  intros Hrun. unfold get_gemini_analysis in Hrun.
  destruct (failures_or_success (models_to_try AVAILABLE_MODELS) w)
    as [(errors & w1 & Hf)
       |(before & m & after & errors & w1 & t & w2 & Hsplit & Hf & Hgen)].
  - pose proof (failures_length generate user_notes pil_image _ _ _ _ Hf)
      as Hlen.
    assert (Hne : errors <> []).
    { intros ->. destruct AVAILABLE_MODELS; discriminate Hlen. }
    destruct (exists_last Hne) as (earlier & e & ->).
    rewrite (try_models_exhausted generate user_notes pil_image
               _ None w [] _ _ Hf) in Hrun.
    rewrite map_app in Hrun. change (map Some [e]) with [Some e] in Hrun.
    rewrite last_last in Hrun. inversion Hrun; subst.
    exists earlier, e. repeat split; [exact Hf|].
    now apply attempted_failed_entries.
  - rewrite Hsplit in Hrun.
    rewrite (try_models_returned generate user_notes pil_image
               before m after None w [] errors w1 t w2 Hf Hgen) in Hrun.
    discriminate Hrun.
Qed.

End Origin.

Lemma returned_text_origin_witness :
  exists before model_name after errors w1,
    models_to_try [] = before ++ model_name :: after
    /\ failures Scenario.only_2_0_flash "" tt before 0 = Some (errors, w1)
    /\ Scenario.only_2_0_flash model_name (build_content "" tt) w1
       = (Generated "## Report", 2)
    /\ [("gemini-2.5-flash", Failed "404 models/gemini-2.5-flash is not found");
        ("gemini-2.0-flash", Generated "## Report")]
       = failed_entries before errors ++ [(model_name, Generated "## Report")].
Proof.
  apply (returned_text_origin Scenario.only_2_0_flash "" tt [] 0).
  reflexivity.
Defined.

Lemma raised_error_origin_witness :
  exists earlier e,
    failures Scenario.refusing "" tt (models_to_try ["gemini-1.5-pro"]) 0
      = Some (earlier ++ [e], 1)
    /\ "Failed to analyze: 401 unauthorized for gemini-1.5-pro"
       = ("Failed to analyze: " ++ e)%string
    /\ [("gemini-1.5-pro", Failed "401 unauthorized for gemini-1.5-pro")]
       = failed_entries (models_to_try ["gemini-1.5-pro"]) (earlier ++ [e])
    /\ attempted
         [("gemini-1.5-pro", Failed "401 unauthorized for gemini-1.5-pro")]
       = models_to_try ["gemini-1.5-pro"].
Proof.
  apply (raised_error_origin Scenario.refusing "" tt ["gemini-1.5-pro"] 0).
  reflexivity.
Defined.

End ChainFacts.

(* ================================================================== *)
(** * Further properties of the page *)

Module PageFacts.
Import PyStr PyStrFacts Config Core CoreFacts Ui UiFacts.

(** The seven substrings the troubleshooting chain looks for. *)
Lemma wrapper_holds_no_keyword (keyword s : string) :
  In keyword ["not found"; "not supported"; "401"; "permission";
              "unauthorized"; "invalid"; "rate limit"] ->
  contains keyword ("failed to analyze: " ++ s) = contains keyword s.
Proof.
  intros H. simpl in H.
  repeat (destruct H as [<-|H]; [reflexivity|]). destruct H.
Qed.

(** X7: the prefix [Failed to analyze: ] that the invoker puts before the
    last error never changes the troubleshooting branch: the wrapped
    message is classified as the provider's own error message is. *)
Theorem classify_ignores_wrapper (e : string) :
  classify ("Failed to analyze: " ++ e) = classify e.
Proof.
  unfold classify. rewrite lower_append.
  change (lower "Failed to analyze: ") with "failed to analyze: ".
  rewrite !wrapper_holds_no_keyword by (simpl; tauto).
  reflexivity.
Qed.

(** X8: the match is blind to letter case. A message holding [not found]
    or [not supported] in any capitalisation gets the no-compatible-models
    text; one holding [401], [permission], [unauthorized] or [invalid] in
    any capitalisation, and neither of the first two, gets the
    authentication text. *)
Theorem classify_any_capitalisation (spelled error_str : string) :
  contains spelled error_str = true ->
  (In (lower spelled) ["not found"; "not supported"] ->
   classify error_str = NoCompatibleModels) /\
  (In (lower spelled) ["401"; "permission"; "unauthorized"; "invalid"] ->
   contains "not found" (lower error_str) = false ->
   contains "not supported" (lower error_str) = false ->
   classify error_str = AuthenticationError).
Proof.
  intros Hin. apply contains_lower in Hin. unfold classify. split.
  - intros [Hs|[Hs|[]]]; rewrite <- Hs in *; rewrite Hin;
      [reflexivity | now rewrite orb_true_r].
  - intros Hs Hnf Hns. rewrite Hnf, Hns. simpl orb. cbv iota.
    destruct Hs as [Hs|[Hs|[Hs|[Hs|[]]]]]; rewrite <- Hs in *; rewrite Hin;
      rewrite ?orb_true_r; reflexivity.
Qed.

Lemma classify_any_capitalisation_witness :
  classify "Failed to analyze: 403 PERMISSION_DENIED" = AuthenticationError.
Proof.
  apply (proj2 (classify_any_capitalisation "PERMISSION"
                  "Failed to analyze: 403 PERMISSION_DENIED" eq_refl)).
  - simpl. right. left. reflexivity.
  - reflexivity.
  - reflexivity.
Defined.

(** X9: the failure block lists the models of the catalog only under the
    no-compatible-models text, and lists none that is not in the catalog. *)
Theorem models_listed_only_when_none_compatible (g : Globals)
    (error_str model_name : string) :
  In (info (" " ++ model_name)) (on_failure g error_str) ->
  classify error_str = NoCompatibleModels
  /\ In model_name (AVAILABLE_MODELS g).
Proof.
  unfold on_failure. intros H. apply in_app_or in H.
  destruct H as [[H|[H|[]]]|H]; try discriminate H.
  destruct (classify error_str); simpl in H;
    try (destruct H as [H|[]]; discriminate H).
  destruct H as [H|H]; [discriminate H|].
  split; [reflexivity|].
  unfold model_report in H. destruct (AVAILABLE_MODELS g) as [|m ms] eqn:Hm.
  - destruct H as [H|[]]; discriminate H.
  - apply in_map_iff in H. destruct H as (x & Hx & Hin).
    injection Hx as Hx. now subst.
Qed.

Lemma models_listed_only_when_none_compatible_witness :
  classify "Failed to analyze: 404 model is not found" = NoCompatibleModels
  /\ In "gemini-2.5-flash"
        (AVAILABLE_MODELS (configure (Some "key") Scenario.pro_listed_first)).
Proof.
  apply (models_listed_only_when_none_compatible
           (configure (Some "key") Scenario.pro_listed_first)
           "Failed to analyze: 404 model is not found" "gemini-2.5-flash").
  simpl. right. right. right. right. left. reflexivity.
Defined.

(** X10: the sidebar names a model as available exactly when the key is
    set and the model is in the catalog, and it warns that no model could
    be detected exactly when the key is set and the catalog is empty. *)
Theorem sidebar_model_list (g : Globals) (model_name : string) :
  (In (listed model_name) (sidebar g) <->
   key_set (GOOGLE_API_KEY g) = true /\ In model_name (AVAILABLE_MODELS g))
  /\ (In (warning " Could not detect available models") (sidebar g) <->
      key_set (GOOGLE_API_KEY g) = true /\ AVAILABLE_MODELS g = []).
Proof.
  unfold sidebar. destruct (key_set (GOOGLE_API_KEY g)).
  - destruct (AVAILABLE_MODELS g) as [|m ms] eqn:Hm; split; split.
    + intros H. apply in_app_or in H.
      destruct H as [[H|[H|[]]]|[H|[]]]; discriminate H.
    + intros [_ []].
    + intros _. now split.
    + intros _. apply in_or_app. right. left. reflexivity.
    + intros H. apply in_app_or in H.
      destruct H as [[H|[H|[]]]|H]; try discriminate H.
      apply in_map_iff in H. destruct H as (x & Hx & Hin).
      injection Hx as ->. now split.
    + intros [_ Hin]. apply in_or_app. right. now apply in_map.
    + intros H. apply in_app_or in H.
      destruct H as [[H|[H|[]]]|H]; try discriminate H.
      apply in_map_iff in H. destruct H as (x & Hx & _). discriminate Hx.
    + intros [_ H]. discriminate H.
  - split; split.
    + intros [H|[]]. discriminate H.
    + intros [H _]. discriminate H.
    + intros [H|[]]. discriminate H.
    + intros [H _]. discriminate H.
Qed.

End PageFacts.

(* ================================================================== *)
(** * Runs of [main] from upload to result *)

Module RunFacts.
Import PyStr PyStrFacts Config Core CoreFacts Ui UiFacts PageFacts.

Section Runs.
Context {World Image File : Type}.
Variable decode : File -> Image + string.
Variable generate : string -> list (Part Image) -> World -> Attempt * World.

(** [user_notes or ""] *)
Lemma notes_or_empty (user_notes : option string) :
  match user_notes with
  | Some s => if truthy s then s else ""
  | None => ""
  end
  = match user_notes with
    | Some s => s
    | None => ""
    end.
Proof. destruct user_notes as [[|c s]|]; reflexivity. Qed.

(** X11: [main] calls the invoker exactly when the button reports a
    press, the key is set, and a file was uploaded that decodes to an
    image. *)
Theorem invoker_reached_iff (g : Globals) (uploaded_file : option File)
    (user_notes : option string) (analyze_button : bool) (w : World) :
  invoked (main decode generate g uploaded_file user_notes analyze_button w)
    = true
  <-> analyze_button = true
      /\ key_set (GOOGLE_API_KEY g) = true
      /\ exists f pil_image,
           uploaded_file = Some f /\ decode f = inl pil_image.
Proof.
  unfold main, preview.
  destruct uploaded_file as [f|].
  - destruct (decode f) as [img|e] eqn:Hdec; cbn [invoked]; unfold results.
    + destruct analyze_button.
      * destruct (key_set (GOOGLE_API_KEY g)); simpl negb; cbv iota.
        -- destruct (get_gemini_analysis generate (AVAILABLE_MODELS g) _ img w)
             as [[[text|msg] w'] log]; cbn [invoked];
             (split; [intros _; repeat split; eauto | reflexivity]).
        -- cbn [invoked]. split; [discriminate | intros (_ & H & _); discriminate H].
      * cbn [invoked]. split; [discriminate | intros (H & _); discriminate H].
    + destruct analyze_button; cbn [invoked];
        (split; [discriminate|]);
        intros (_ & _ & f' & img & Hf & Hd); injection Hf as <-; congruence.
  - cbn [invoked]. unfold results.
    destruct analyze_button; cbn [invoked];
      (split; [discriminate|]);
      intros (_ & _ & f' & img & Hf & _); discriminate Hf.
Qed.

(** X12: an upload that cannot be decoded leaves the button enabled
    when the key is set; the preview shows the decoding error, a press of
    the button is answered by the request for a valid image, and the
    invoker is not called. *)
Theorem undecodable_upload (g : Globals) (f : File) (e : string)
    (user_notes : option string) (analyze_button : bool) (w : World) :
  decode f = inr e ->
  main decode generate g (Some f) user_notes analyze_button w =
  mkRun (sidebar g
         ++ [button " Analyze Artifact" (negb (key_set (GOOGLE_API_KEY g)));
             error (" Could not load image: " ++ e)]
         ++ (if analyze_button
             then [error " Please upload a valid image."]
             else []))
        false w [].
Proof.
  intros Hdec. unfold main, preview, analyze_disabled. rewrite Hdec.
  unfold results. destruct analyze_button; reflexivity.
Qed.

(** X13: with the key set, a decodable upload and a press of the button,
    when the models before one fail and that one answers, the page shows
    the enabled button, the preview, the success notice and the report
    holding exactly the text the model gave; the earlier failures are not
    shown. *)
Theorem analysis_success_page (g : Globals) (f : File) (pil_image : Image)
    (user_notes : option string) (w : World)
    (before : list string) (model_name : string) (after errors : list string)
    (w1 : World) (text : string) (w2 : World) :
  let notes := match user_notes with Some s => s | None => "" end in
  key_set (GOOGLE_API_KEY g) = true ->
  decode f = inl pil_image ->
  models_to_try (AVAILABLE_MODELS g) = before ++ model_name :: after ->
  failures generate notes pil_image before w = Some (errors, w1) ->
  generate model_name (build_content notes pil_image) w1
    = (Generated text, w2) ->
  main decode generate g (Some f) user_notes true w =
  mkRun (sidebar g
         ++ [button " Analyze Artifact" false; image_preview;
             success " Analysis Complete!"; report text])
        true w2
        (failed_entries before errors ++ [(model_name, Generated text)]).
Proof.
  intros notes Hkey Hdec Hsplit Hfail Hgen.
  unfold main, preview, analyze_disabled, results.
  rewrite Hdec, Hkey. simpl negb. cbv iota.
  rewrite notes_or_empty. fold notes.
  unfold get_gemini_analysis. rewrite Hsplit.
  rewrite (try_models_returned generate notes pil_image before model_name
             after None w [] errors w1 text w2 Hfail Hgen).
  reflexivity.
Qed.

(** X14: with the key set, a decodable upload and a press of the button,
    when every model fails the page shows the wrapped error of the last
    model, and under it the troubleshooting text that this last error, on
    its own, calls for. *)
Theorem analysis_failure_page (g : Globals) (f : File) (pil_image : Image)
    (user_notes : option string) (w : World)
    (earlier : list string) (e : string) (w' : World) :
  let notes := match user_notes with Some s => s | None => "" end in
  key_set (GOOGLE_API_KEY g) = true ->
  decode f = inl pil_image ->
  failures generate notes pil_image (models_to_try (AVAILABLE_MODELS g)) w
    = Some (earlier ++ [e], w') ->
  let r := main decode generate g (Some f) user_notes true w in
  r = mkRun (sidebar g
             ++ [button " Analyze Artifact" false; image_preview]
             ++ on_failure g ("Failed to analyze: " ++ e))
            true w'
            (failed_entries (models_to_try (AVAILABLE_MODELS g))
               (earlier ++ [e]))
  /\ In (error (" Analysis failed: Failed to analyze: " ++ e)) (page r)
  /\ In (troubleshooting (classify e) ("Failed to analyze: " ++ e)) (page r).
Proof.
  intros notes Hkey Hdec Hfail r.
  assert (Hr : r = mkRun (sidebar g
                          ++ [button " Analyze Artifact" false; image_preview]
                          ++ on_failure g ("Failed to analyze: " ++ e))
                         true w'
                         (failed_entries (models_to_try (AVAILABLE_MODELS g))
                            (earlier ++ [e]))).
  { subst r. unfold main, preview, analyze_disabled, results.
    rewrite Hdec, Hkey. simpl negb. cbv iota.
    rewrite notes_or_empty. fold notes.
    unfold get_gemini_analysis.
    rewrite (try_models_exhausted generate notes pil_image
               _ None w [] _ _ Hfail).
    rewrite map_app. change (map Some [e]) with [Some e].
    rewrite last_last. reflexivity. }
  split; [exact Hr|]. rewrite Hr. cbn [page]. split.
  - apply in_or_app. right. apply in_or_app. right.
    unfold on_failure. left. reflexivity.
  - apply in_or_app. right. apply in_or_app. right.
    rewrite <- (classify_ignores_wrapper e).
    apply on_failure_shows_branch.
Qed.

End Runs.

Lemma undecodable_upload_witness :
  main Scenario.undecodable Scenario.healthy
       (configure (Some "key") Scenario.pro_listed_first)
       (Some tt) None true 0 =
  mkRun (sidebar (configure (Some "key") Scenario.pro_listed_first)
         ++ [button " Analyze Artifact" false;
             error " Could not load image: cannot identify image file"]
         ++ [error " Please upload a valid image."])
        false 0 [].
Proof.
  apply (undecodable_upload Scenario.undecodable Scenario.healthy
           (configure (Some "key") Scenario.pro_listed_first)
           tt "cannot identify image file" None true 0).
  reflexivity.
Defined.

Lemma analysis_success_page_witness :
  main Scenario.decodable Scenario.only_2_0_flash
       (configure (Some "key") Scenario.interrupted)
       (Some tt) (Some "found near Delphi") true 0 =
  mkRun (sidebar (configure (Some "key") Scenario.interrupted)
         ++ [button " Analyze Artifact" false; image_preview;
             success " Analysis Complete!"; report "## Report"])
        true 2
        (failed_entries ["gemini-2.5-flash"]
           ["404 models/gemini-2.5-flash is not found"]
         ++ [("gemini-2.0-flash", Generated "## Report")]).
Proof.
  apply (analysis_success_page Scenario.decodable Scenario.only_2_0_flash
           (configure (Some "key") Scenario.interrupted)
           tt tt (Some "found near Delphi") 0
           ["gemini-2.5-flash"] "gemini-2.0-flash" ["gemini-2.5-pro"]
           ["404 models/gemini-2.5-flash is not found"] 1 "## Report" 2).
  - reflexivity.
  - reflexivity.
  - reflexivity.
  - reflexivity.
  - reflexivity.
Defined.

Lemma analysis_failure_page_witness :
  In (troubleshooting AuthenticationError
        "Failed to analyze: 401 unauthorized for gemini-2.5-flash")
     (page (main Scenario.decodable Scenario.refusing
              (configure (Some "key") Scenario.pro_listed_first)
              (Some tt) None true 0)).
Proof.
  apply (analysis_failure_page Scenario.decodable Scenario.refusing
           (configure (Some "key") Scenario.pro_listed_first)
           tt tt None 0
           ["401 unauthorized for gemini-2.5-pro"]
           "401 unauthorized for gemini-2.5-flash" 2).
  - reflexivity.
  - reflexivity.
  - reflexivity.
Defined.

End RunFacts.

(* ================================================================== *)
(** * The catalog and the hardcoded defaults *)

Module DefaultsFacts.
Import PyStr Core CoreFacts.

Section Defaults.
Context {World Image : Type}.
Variable generate : string -> list (Part Image) -> World -> Attempt * World.
Variables (user_notes : string) (pil_image : Image).

(** X15: the three hardcoded identifiers stand in for an empty catalog
    only. With a catalog of at least one model, every model attempted is a
    model of the catalog, and there are no more attempts than the catalog
    has entries, also when all of them fail. *)
Theorem defaults_not_tried_with_catalog (AVAILABLE_MODELS : list string)
    (w : World) :
  AVAILABLE_MODELS <> [] ->
  let log := snd (get_gemini_analysis generate AVAILABLE_MODELS
                    user_notes pil_image w) in
  (forall model_name,
     In model_name (attempted log) -> In model_name AVAILABLE_MODELS)
  /\ length log <= length AVAILABLE_MODELS.
Proof.
  intros Hne log.
  assert (Hmodels : models_to_try AVAILABLE_MODELS = AVAILABLE_MODELS)
    by (destruct AVAILABLE_MODELS; [congruence | reflexivity]).
  destruct (try_models_prefix generate user_notes pil_image
              (models_to_try AVAILABLE_MODELS) None w [])
    as (entries & rest & Hlog & Hsplit & _).
  assert (Hentries : log = entries).
  { subst log. unfold get_gemini_analysis.
    destruct (try_models generate user_notes pil_image
                (models_to_try AVAILABLE_MODELS) None w [])
      as [[[text|last_error] w'] l]; simpl in *; now subst. }
  rewrite Hmodels in Hsplit. rewrite Hentries. split.
  - intros model_name Hin. rewrite Hsplit. apply in_or_app. now left.
  - apply (f_equal (@length string)) in Hsplit. unfold attempted in Hsplit.
    rewrite length_app, length_map in Hsplit.
    unfold Entry in *. rewrite Hsplit. apply Nat.le_add_r.
Qed.

End Defaults.

Lemma defaults_not_tried_with_catalog_witness :
  (forall model_name,
     In model_name
        (attempted (snd (get_gemini_analysis Scenario.refusing
                           ["gemini-1.5-pro"] "" tt 0))) ->
     In model_name ["gemini-1.5-pro"])
  /\ length (snd (get_gemini_analysis Scenario.refusing
                    ["gemini-1.5-pro"] "" tt 0)) <= 1.
Proof.
  apply (defaults_not_tried_with_catalog Scenario.refusing "" tt
           ["gemini-1.5-pro"] 0).
  discriminate.
Defined.

End DefaultsFacts.
